(** * accounts/forms.py: the field validators of the account forms

    A shallow embedding of the [clean_<field>] methods of
    [src/accounts/forms.py] and the properties the specification states
    about them.

    - Text (user names, e-mail addresses, passwords) is [string].
    - A timestamp is the number of microseconds since the epoch, a [Z];
      [datetime] and [timedelta] arithmetic is exact on it.
    - A table is the list of its rows in the order in which [first()]
      sees them: the model's declared ordering, or the primary key when
      the model declares none.
    - A form is its mutable state, the attribute [user_cache]; a clean
      method is a computation that reads and writes that state and either
      returns the cleaned value or raises a [ValidationError]. *)

From Stdlib Require Import List String Ascii ZArith Bool Lia.
Import ListNotations.
Open Scope string_scope.
Open Scope Z_scope.

(** ** Rows of the two tables *)

Module models.

(** [django.contrib.auth.models.User], the columns the forms read. *)
Record User := mkUser {
  id : Z;
  username : string;
  email : string;
  password : string;      (* the encoded password, opaque to the forms *)
  is_active : bool
}.

(** A row of the activation table behind [user.activation_set]: the
    forms read its foreign key (through the related manager) and
    [created_at]. *)
Record Activation := mkActivation {
  act_id : Z;
  user_id : Z;
  created_at : Z
}.

End models.
Import models.

Record Database := mkDatabase {
  users : list User;
  activations : list Activation
}.

(** ** Query sets *)

Module QuerySet.

(** [qs.first()]: the first row of the query set, [None] when empty. *)
Definition first {A : Type} (qs : list A) : option A :=
  match qs with
  | [] => None
  | row :: _ => Some row
  end.

(** [qs.exists()]. *)
Definition exists_ {A : Type} (qs : list A) : bool :=
  match qs with
  | [] => false
  | _ :: _ => true
  end.

End QuerySet.

(** ** Field lookups *)

(** ASCII case folding, as the [iexact] lookup compares. *)
Definition upper_ascii (c : ascii) : ascii :=
  let n := nat_of_ascii c in
  if (Nat.leb 97 n && Nat.leb n 122)%bool then ascii_of_nat (n - 32) else c.

Fixpoint upper (s : string) : string :=
  match s with
  | EmptyString => EmptyString
  | String c rest => String (upper_ascii c) (upper rest)
  end.

(** [field__iexact=value]. *)
Definition iexact (field value : string) : bool :=
  String.eqb (upper field) (upper value).

(** [Q(username=value)]. *)
Definition Q_username (value : string) (u : User) : bool :=
  String.eqb (username u) value.

(** [Q(email__iexact=value)]. *)
Definition Q_email_iexact (value : string) (u : User) : bool :=
  iexact (email u) value.

(** [Q(username=value) | Q(email__iexact=value)]. *)
Definition Q_username_or_email (value : string) (u : User) : bool :=
  Q_username value u || Q_email_iexact value u.

(** [Q(email__iexact=value) & ~Q(id=pk)]. *)
Definition Q_email_iexact_excluding (value : string) (pk : Z) (u : User) : bool :=
  Q_email_iexact value u && negb (id u =? pk).

(** [User.objects.filter(q)]. *)
Definition User_objects_filter (db : Database) (q : User -> bool) : list User :=
  filter q (users db).

(** [user.activation_set]: the activation rows whose foreign key is the
    user. *)
Definition activation_set (db : Database) (user : User) : list Activation :=
  filter (fun a => user_id a =? id user) (activations db).

(** ** Validation errors *)

(** The messages the forms raise, one constructor per distinct text. *)
Inductive Message : Set :=
  | WrongPassword              (* 'Yanlış şifre girişi yaptınız.' *)
  | NoSuchUser                 (* 'Böyle bir kullanıcı bulunmamaktadır.' *)
  | NoUserForEmail             (* 'Bu eposta üzerine kayıtlı bir kullanıcı bulunmamaktadır.' *)
  | NoAccountForEmailOrUsername (* 'Bu eposta veya kullanıcı adı üzerine kayıtlı bir hesap bulunmamaktadır.' *)
  | NotActiveYet               (* 'Bu hesap henüz aktif değil.' *)
  | AlreadyActivated           (* 'Bu hesap halihazırda aktif hale getirilmiş.' *)
  | ActivationCodeNotFound     (* 'Aktivasyon kodu bulunamadı.' *)
  | ActivationCodeNotFound'    (* 'Aktivasyon kodu bulunamadı' *)
  | CodeAlreadySent            (* 'Aktivasyon kodunuz halihazırda gönderilmiştir. 24 saat ...' *)
  | CodeAlreadySent'           (* 'Aktivasyon kodunuz hali hazırda gönderilmiştir. 24 saat ...' *)
  | EmailNotAvailable          (* 'Bu eposta adresini kullanamazsınız.' *)
  | EnterAnotherEmail.         (* 'Lütfen başka bir eposta adresi giriniz.' *)

(** The error names of the specification. *)
Inductive ErrorKind : Set :=
  | InvalidCredential
  | NotFound
  | NotActivated
  | AlreadyActive
  | NoActivationRecord
  | RateLimited
  | EmailTaken
  | SameEmail.

(** What each message tells the user. *)
Definition kind (m : Message) : ErrorKind :=
  match m with
  | WrongPassword => InvalidCredential
  | NoSuchUser | NoUserForEmail | NoAccountForEmailOrUsername => NotFound
  | NotActiveYet => NotActivated
  | AlreadyActivated => AlreadyActive
  | ActivationCodeNotFound | ActivationCodeNotFound' => NoActivationRecord
  | CodeAlreadySent | CodeAlreadySent' => RateLimited
  | EmailNotAvailable => EmailTaken
  | EnterAnotherEmail => SameEmail
  end.

(** ** Forms as state, clean methods as computations *)

(** [UserCacheMixin]: the one attribute the clean methods assign. *)
Record Form := mkForm { user_cache : option User }.

(** A form as constructed: the class attribute [user_cache = None]. *)
Definition new_form : Form := mkForm None.

Inductive Outcome (A : Type) : Type :=
  | Return (value : A)
  | Raise (error : Message).
Arguments Return {A} value.
Arguments Raise {A} error.

Definition Clean (A : Type) : Type := Form -> Outcome A * Form.

Definition ret {A} (a : A) : Clean A := fun self => (Return a, self).

Definition raise {A} (m : Message) : Clean A := fun self => (Raise m, self).

Definition bind {A B} (c : Clean A) (k : A -> Clean B) : Clean B :=
  fun self =>
    match c self with
    | (Return a, self') => k a self'
    | (Raise m, self') => (Raise m, self')
    end.

(** [self.user_cache]. *)
Definition get_user_cache : Clean (option User) :=
  fun self => (Return (user_cache self), self).

(** [self.user_cache = user]. *)
Definition set_user_cache (user : User) : Clean unit :=
  fun _ => (Return tt, mkForm (Some user)).

Declare Scope clean_scope.
Delimit Scope clean_scope with clean.
Notation "x <- c ;; k" := (bind c (fun x => k))
  (at level 61, c at next level, right associativity) : clean_scope.
Notation "c ;; k" := (bind c (fun _ => k))
  (at level 61, right associativity) : clean_scope.
Open Scope clean_scope.

(** [timedelta(hours=24)], in microseconds. *)
Definition hours_24 : Z := 24 * 3600 * 1000000.

(** ** The clean methods *)

Section SignIn.

(** [user.check_password(raw)]: whether the raw password matches the
    user's stored hash; the hashers belong to the framework. *)
Variable check_password : User -> string -> bool.

(** [SignIn.clean_password]. *)
Definition SignIn_clean_password (password : string) : Clean string :=
  cache <- get_user_cache ;;
  match cache with
  | None => ret password
  | Some user =>
      if negb (check_password user password)
      then raise WrongPassword
      else ret password
  end.

End SignIn.

(** [SignInViaUsernameForm.clean_username]. *)
Definition SignInViaUsernameForm_clean_username
    (db : Database) (username : string) : Clean string :=
  match QuerySet.first (User_objects_filter db (Q_username username)) with
  | None => raise NoSuchUser
  | Some user =>
      if negb (is_active user)
      then raise NotActiveYet
      else set_user_cache user ;; ret username
  end.

(** [SignInViaEmailForm.clean_email]. *)
Definition SignInViaEmailForm_clean_email
    (db : Database) (email : string) : Clean string :=
  match QuerySet.first (User_objects_filter db (Q_email_iexact email)) with
  | None => raise NoUserForEmail
  | Some user =>
      if negb (is_active user)
      then raise NotActiveYet
      else set_user_cache user ;; ret email
  end.

(** [SignInViaEmailOrUsernameForm.clean_email_or_username]. *)
Definition SignInViaEmailOrUsernameForm_clean_email_or_username
    (db : Database) (email_or_username : string) : Clean string :=
  match QuerySet.first
          (User_objects_filter db (Q_username_or_email email_or_username)) with
  | None => raise NoAccountForEmailOrUsername
  | Some user =>
      if negb (is_active user)
      then raise NotActiveYet
      else set_user_cache user ;; ret email_or_username
  end.

(** [SignUpForm.clean_email]; the form has no [user_cache]. *)
Definition SignUpForm_clean_email (db : Database) (email : string)
    : Outcome string :=
  let user := QuerySet.exists_ (User_objects_filter db (Q_email_iexact email)) in
  if user then Raise EmailNotAvailable else Return email.

(** [ResendActivationCodeForm.clean_email_or_username]; [now] is what
    [timezone.now()] returns during the call. *)
Definition ResendActivationCodeForm_clean_email_or_username
    (db : Database) (now : Z) (email_or_username : string) : Clean string :=
  match QuerySet.first
          (User_objects_filter db (Q_username_or_email email_or_username)) with
  | None => raise NoAccountForEmailOrUsername
  | Some user =>
      if is_active user
      then raise NotActiveYet
      else
        match QuerySet.first (activation_set db user) with
        | None => raise ActivationCodeNotFound
        | Some activation =>
            let now_with_shift := now - hours_24 in
            if created_at activation >? now_with_shift
            then raise CodeAlreadySent
            else set_user_cache user ;; ret email_or_username
        end
  end.

(** [ResendActivationCodeViaEmailForm.clean_email]. *)
Definition ResendActivationCodeViaEmailForm_clean_email
    (db : Database) (now : Z) (email : string) : Clean string :=
  match QuerySet.first (User_objects_filter db (Q_email_iexact email)) with
  | None => raise NoUserForEmail
  | Some user =>
      if is_active user
      then raise AlreadyActivated
      else
        match QuerySet.first (activation_set db user) with
        | None => raise ActivationCodeNotFound'
        | Some activation =>
            let now_with_shift := now - hours_24 in
            if created_at activation >? now_with_shift
            then raise CodeAlreadySent'
            else set_user_cache user ;; ret email
        end
  end.

(** [RestorePasswordForm.clean_email]. *)
Definition RestorePasswordForm_clean_email
    (db : Database) (email : string) : Clean string :=
  match QuerySet.first (User_objects_filter db (Q_email_iexact email)) with
  | None => raise NoUserForEmail
  | Some user =>
      if negb (is_active user)
      then raise NotActiveYet
      else set_user_cache user ;; ret email
  end.

(** [RestorePasswordViaEmailOrUsernameForm.clean_email_or_username]. *)
Definition RestorePasswordViaEmailOrUsernameForm_clean_email_or_username
    (db : Database) (email_or_username : string) : Clean string :=
  match QuerySet.first
          (User_objects_filter db (Q_username_or_email email_or_username)) with
  | None => raise NoAccountForEmailOrUsername
  | Some user =>
      if negb (is_active user)
      then raise NotActiveYet
      else set_user_cache user ;; ret email_or_username
  end.

(** [ChangeEmailForm.clean_email]; [self_user] is the [self.user] the
    form was constructed with. The form has no [user_cache]. *)
Definition ChangeEmailForm_clean_email
    (db : Database) (self_user : User) (email : string) : Outcome string :=
  if String.eqb email (models.email self_user)
  then Raise EnterAnotherEmail
  else
    let user :=
      QuerySet.exists_
        (User_objects_filter db (Q_email_iexact_excluding email (id self_user))) in
    if user then Raise EmailNotAvailable else Return email.

(** [RemindUsernameForm.clean_email]. *)
Definition RemindUsernameForm_clean_email
    (db : Database) (email : string) : Clean string :=
  match QuerySet.first (User_objects_filter db (Q_email_iexact email)) with
  | None => raise NoUserForEmail
  | Some user =>
      if negb (is_active user)
      then raise NotActiveYet
      else set_user_cache user ;; ret email
  end.

(** The forms that carry a [user_cache] and assign it in a clean method. *)
Inductive CachingForm : Set :=
  | SignInViaUsernameForm
  | SignInViaEmailForm
  | SignInViaEmailOrUsernameForm
  | ResendActivationCodeForm
  | ResendActivationCodeViaEmailForm
  | RestorePasswordForm
  | RestorePasswordViaEmailOrUsernameForm
  | RemindUsernameForm.

(** The clean method of each of them that resolves the identity. *)
Definition clean_identifier (form : CachingForm) (db : Database) (now : Z)
    (value : string) : Clean string :=
  match form with
  | SignInViaUsernameForm => SignInViaUsernameForm_clean_username db value
  | SignInViaEmailForm => SignInViaEmailForm_clean_email db value
  | SignInViaEmailOrUsernameForm =>
      SignInViaEmailOrUsernameForm_clean_email_or_username db value
  | ResendActivationCodeForm =>
      ResendActivationCodeForm_clean_email_or_username db now value
  | ResendActivationCodeViaEmailForm =>
      ResendActivationCodeViaEmailForm_clean_email db now value
  | RestorePasswordForm => RestorePasswordForm_clean_email db value
  | RestorePasswordViaEmailOrUsernameForm =>
      RestorePasswordViaEmailOrUsernameForm_clean_email_or_username db value
  | RemindUsernameForm => RemindUsernameForm_clean_email db value
  end.

(** The query each form resolves the identity with. *)
Definition lookup (form : CachingForm) (value : string) : User -> bool :=
  match form with
  | SignInViaUsernameForm => Q_username value
  | SignInViaEmailForm | ResendActivationCodeViaEmailForm
  | RestorePasswordForm | RemindUsernameForm => Q_email_iexact value
  | SignInViaEmailOrUsernameForm | ResendActivationCodeForm
  | RestorePasswordViaEmailOrUsernameForm => Q_username_or_email value
  end.

(** Resending an activation code is for accounts that are not active;
    every other form is for active accounts. *)
Definition is_resend (form : CachingForm) : bool :=
  match form with
  | ResendActivationCodeForm | ResendActivationCodeViaEmailForm => true
  | _ => false
  end.

(** ** Reading outcomes *)

(** The outcome is a validation error of the given kind. *)
Definition fails_with {A} (k : ErrorKind) (o : Outcome A) : Prop :=
  match o with
  | Raise m => kind m = k
  | Return _ => False
  end.

(** The outcome is a validation error. *)
Definition fails {A} (o : Outcome A) : Prop :=
  match o with
  | Raise _ => True
  | Return _ => False
  end.

(** [resolves db q user]: the look-up with [q] yields [user]. *)
Definition resolves (db : Database) (q : User -> bool) (user : User) : Prop :=
  QuerySet.first (User_objects_filter db q) = Some user.

(** No row of the user table satisfies [q]. *)
Definition no_match (db : Database) (q : User -> bool) : Prop :=
  forall u, In u (users db) -> q u = false.

(** The most recent activation of a list: the one with the greatest
    [created_at], the earliest such in query order on a tie. *)
Fixpoint latest (acts : list Activation) : option Activation :=
  match acts with
  | [] => None
  | a :: rest =>
      match latest rest with
      | Some b => if created_at b >? created_at a then Some b else Some a
      | None => Some a
      end
  end.

(** The query order lists newer activations before older ones. *)
Fixpoint newest_first (acts : list Activation) : Prop :=
  match acts with
  | [] => True
  | a :: rest =>
      (forall b, In b rest -> created_at b <= created_at a) /\ newest_first rest
  end.

(** The data model's invariant on e-mail addresses: no two accounts
    hold addresses that are equal up to letter case. *)
Definition emails_unique (db : Database) : Prop :=
  forall u v, In u (users db) -> In v (users db) ->
    iexact (email u) (email v) = true -> id u = id v.

(** The sign-in forms among them. *)
Definition is_sign_in (form : CachingForm) : bool :=
  match form with
  | SignInViaUsernameForm | SignInViaEmailForm
  | SignInViaEmailOrUsernameForm => true
  | _ => false
  end.

(** ** A small database to run the methods on *)

Definition hour : Z := 3600 * 1000000.

Definition alice : User := mkUser 1 "alice" "Alice@Example.com" "pw-alice" true.
Definition bob : User := mkUser 2 "bob" "bob@example.com" "pw-bob" false.
Definition carol : User := mkUser 3 "carol" "carol@example.com" "pw-carol" false.
Definition dave : User := mkUser 4 "dave" "dave@example.com" "pw-dave" false.

(** bob asked for a code at hour 0 and again at hour 100; carol never
    did; dave asked once, at hour 10. The rows are in primary-key order. *)
Definition bob_old : Activation := mkActivation 1 2 0.
Definition bob_new : Activation := mkActivation 2 2 (100 * hour).
Definition dave_only : Activation := mkActivation 3 4 (10 * hour).

Definition example_db : Database :=
  mkDatabase [alice; bob; carol; dave] [bob_old; bob_new; dave_only].

(** A password check that compares with the stored text. *)
Definition plain_check (user : User) (raw : string) : bool :=
  String.eqb raw (password user).

(** ** The fields of a form and the order they are cleaned in *)

(** The name of the field each form resolves the identity from. *)
Definition identifier_field (form : CachingForm) : string :=
  match form with
  | SignInViaUsernameForm => "username"
  | SignInViaEmailForm | ResendActivationCodeViaEmailForm
  | RestorePasswordForm | RemindUsernameForm => "email"
  | SignInViaEmailOrUsernameForm | ResendActivationCodeForm
  | RestorePasswordViaEmailOrUsernameForm => "email_or_username"
  end.

(** The fields a form class declares, those of the base class [SignIn]
    before the form's own. *)
Definition declared_fields (form : CachingForm) : list string :=
  if is_sign_in form
  then ["password"; identifier_field form]
  else [identifier_field form].

(** [SignInViaUsernameForm.field_order]. *)
Definition SignInViaUsernameForm_field_order (USE_REMEMBER_ME : bool)
    : list string :=
  if USE_REMEMBER_ME
  then ["username"; "password"; "remember_me"]
  else ["username"; "password"].

(** [SignInViaEmailForm.field_order]. *)
Definition SignInViaEmailForm_field_order (USE_REMEMBER_ME : bool)
    : list string :=
  if USE_REMEMBER_ME
  then ["email"; "password"; "remember_me"]
  else ["email"; "password"].

(** [SignInViaEmailOrUsernameForm.field_order]. *)
Definition SignInViaEmailOrUsernameForm_field_order (USE_REMEMBER_ME : bool)
    : list string :=
  if USE_REMEMBER_ME
  then ["email_or_username"; "password"; "remember_me"]
  else ["email_or_username"; "password"].

(** [form.field_order]; the other forms keep the class default, [None]. *)
Definition field_order (form : CachingForm) (USE_REMEMBER_ME : bool)
    : option (list string) :=
  match form with
  | SignInViaUsernameForm =>
      Some (SignInViaUsernameForm_field_order USE_REMEMBER_ME)
  | SignInViaEmailForm =>
      Some (SignInViaEmailForm_field_order USE_REMEMBER_ME)
  | SignInViaEmailOrUsernameForm =>
      Some (SignInViaEmailOrUsernameForm_field_order USE_REMEMBER_ME)
  | _ => None
  end.

(** [dict.pop(key)] on the keys of a field dictionary. *)
Fixpoint pop (key : string) (fields : list string) : list string :=
  match fields with
  | [] => []
  | k :: rest => if String.eqb k key then rest else k :: pop key rest
  end.

(** The loop of [BaseForm.order_fields]: the keys of [order] that are
    fields, in that order, each popped from the fields left; a key that
    is no field (any more) is skipped. *)
Fixpoint take_in_order (order fields : list string)
    : list string * list string :=
  match order with
  | [] => ([], fields)
  | key :: rest =>
      if existsb (String.eqb key) fields
      then let (taken, left) := take_in_order rest (pop key fields) in
           (key :: taken, left)
      else take_in_order rest fields
  end.

(** [BaseForm.order_fields(field_order)]: the fields named in
    [field_order] first, then the remaining ones in their original order;
    nothing changes when [field_order] is [None]. *)
Definition order_fields (fields : list string)
    (field_order : option (list string)) : list string :=
  match field_order with
  | None => fields
  | Some order =>
      let (taken, left) := take_in_order order fields in taken ++ left
  end.

(** [SignIn.__init__]: the base initialiser orders the declared fields by
    [field_order]; after it, [remember_me] is added when the setting is
    on. The other forms have the base initialiser only. *)
Definition init_fields (form : CachingForm) (USE_REMEMBER_ME : bool)
    : list string :=
  let fields := order_fields (declared_fields form)
                  (field_order form USE_REMEMBER_ME) in
  if is_sign_in form && USE_REMEMBER_ME
  then fields ++ ["remember_me"]
  else fields.

Section FullClean.

Variable check_password : User -> string -> bool.
Variable db : Database.
Variable now : Z.
Variable form : CachingForm.

(** The submitted values, each already accepted by its field. *)
Variable identifier : string.
Variable candidate : string.

(** The method [clean_<name>] of the form, when it has one. *)
Definition clean_method (name : string) : option (Clean string) :=
  if String.eqb name (identifier_field form)
  then Some (clean_identifier form db now identifier)
  else if String.eqb name "password" && is_sign_in form
  then Some (SignIn_clean_password check_password candidate)
  else None.

(** [BaseForm._clean_fields] from the point where the fields themselves
    accepted their values: field by field, in the order of the form's
    fields, the clean method runs on the form as the previous one left
    it; a [ValidationError] is recorded under the field's name and the
    loop goes on. *)
Fixpoint clean_fields (names : list string) (errors : list (string * Message))
    (self : Form) : list (string * Message) * Form :=
  match names with
  | [] => (errors, self)
  | name :: rest =>
      match clean_method name with
      | None => clean_fields rest errors self
      | Some clean =>
          match clean self with
          | (Return _, self') => clean_fields rest errors self'
          | (Raise e, self') => clean_fields rest (errors ++ [(name, e)]) self'
          end
      end
  end.

(** Cleaning a newly made form. *)
Definition full_clean (USE_REMEMBER_ME : bool)
    : list (string * Message) * Form :=
  clean_fields (init_fields form USE_REMEMBER_ME) [] new_form.

End FullClean.

(** ** Tables after a form was accepted *)

(** The forms that look the identity up by e-mail address alone. *)
Definition looks_up_by_email (form : CachingForm) : bool :=
  match form with
  | SignInViaEmailForm | ResendActivationCodeViaEmailForm
  | RestorePasswordForm | RemindUsernameForm => true
  | _ => false
  end.

(** The primary key identifies the row. *)
Definition ids_unique (db : Database) : Prop :=
  forall u v, In u (users db) -> In v (users db) -> id u = id v -> u = v.

(** The table with one more account. *)
Definition with_new_user (db : Database) (new : User) : Database :=
  mkDatabase (users db ++ [new]) (activations db).

(** The row of a user with another address. *)
Definition with_email (u : User) (address : string) : User :=
  mkUser (id u) (username u) address (password u) (is_active u).

(** The table with the address stored on the rows of [self_user]. *)
Definition with_changed_email (db : Database) (self_user : User)
    (address : string) : Database :=
  mkDatabase
    (map (fun u => if id u =? id self_user then with_email u address else u)
       (users db))
    (activations db).

(** ** Running a clean method *)

Ltac unfold_clean :=
  unfold clean_identifier,
    SignInViaUsernameForm_clean_username,
    SignInViaEmailForm_clean_email,
    SignInViaEmailOrUsernameForm_clean_email_or_username,
    ResendActivationCodeForm_clean_email_or_username,
    ResendActivationCodeViaEmailForm_clean_email,
    RestorePasswordForm_clean_email,
    RestorePasswordViaEmailOrUsernameForm_clean_email_or_username,
    RemindUsernameForm_clean_email,
    bind, ret, raise, set_user_cache, get_user_cache.

(** ** Query sets: basic facts *)

Lemma first_filter_None {A} (q : A -> bool) (l : list A) :
  QuerySet.first (filter q l) = None <-> (forall x, In x l -> q x = false).
Proof.
  induction l as [|a l IH]; simpl.
  - split; [intros _ x [] | reflexivity].
  - destruct (q a) eqn:Ha; simpl.
    + split; [discriminate|].
      intros H. rewrite (H a) in Ha by now left. discriminate.
    + rewrite IH. split.
      * intros H x [<-|Hx]; auto.
      * intros H x Hx. apply H. now right.
Qed.

Lemma first_filter_Some {A} (q : A -> bool) (l : list A) (x : A) :
  QuerySet.first (filter q l) = Some x -> In x l /\ q x = true.
Proof.
  induction l as [|a l IH]; simpl; [discriminate|].
  destruct (q a) eqn:Ha; simpl.
  - intros [= <-]. auto.
  - intros H. destruct (IH H). auto.
Qed.

Lemma exists_filter_true {A} (q : A -> bool) (l : list A) :
  QuerySet.exists_ (filter q l) = true <-> (exists x, In x l /\ q x = true).
Proof.
  induction l as [|a l IH]; simpl.
  - split; [discriminate | intros (x & [] & _)].
  - destruct (q a) eqn:Ha; simpl.
    + split; [|reflexivity]. intros _. exists a. auto.
    + rewrite IH. split.
      * intros (x & Hx & Hq). exists x. auto.
      * intros (x & [<-|Hx] & Hq); [congruence|]. exists x. auto.
Qed.

Lemma exists_filter_false {A} (q : A -> bool) (l : list A) :
  QuerySet.exists_ (filter q l) = false <-> (forall x, In x l -> q x = false).
Proof.
  split.
  - intros H x Hx. destruct (q x) eqn:Hq; [|reflexivity].
    assert (QuerySet.exists_ (filter q l) = true) by
      (apply exists_filter_true; eauto).
    congruence.
  - intros H. destruct (QuerySet.exists_ (filter q l)) eqn:E; [|reflexivity].
    apply exists_filter_true in E. destruct E as (x & Hx & Hq).
    rewrite (H x Hx) in Hq. discriminate.
Qed.

(** ** Case-insensitive comparison: an equivalence *)

Lemma iexact_refl (s : string) : iexact s s = true.
Proof. apply String.eqb_refl. Qed.

Lemma iexact_sym (s t : string) : iexact s t = iexact t s.
Proof. apply String.eqb_sym. Qed.

Lemma iexact_trans (s t r : string) :
  iexact s t = true -> iexact t r = true -> iexact s r = true.
Proof.
  unfold iexact. rewrite !String.eqb_eq. congruence.
Qed.

(** What a resend form does once the account is resolved, not active and
    has a first activation: only the time comparison is left. *)
Lemma resend_after_lookup form db now value self user a :
  is_resend form = true ->
  resolves db (lookup form value) user ->
  is_active user = false ->
  QuerySet.first (activation_set db user) = Some a ->
  clean_identifier form db now value self =
    if created_at a >? now - hours_24
    then (Raise (match form with
                 | ResendActivationCodeForm => CodeAlreadySent
                 | _ => CodeAlreadySent'
                 end), self)
    else (Return value, mkForm (Some user)).
Proof.
  intros Hform Hres Hact Ha. unfold resolves in Hres.
  destruct form; try discriminate Hform; simpl in Hres; unfold_clean;
    rewrite Hres, Hact, Ha; destruct (created_at a >? now - hours_24);
    reflexivity.
Qed.

(** ** The resend cooldown *)

(** C1. For a resend request whose identity is resolved, not active and
    has an activation record, the request is rejected with the rate-limit
    error exactly when the record's [created_at] is strictly later than
    now minus 24 hours; so it succeeds exactly when the record is at
    least 24 hours old. Both resend forms. *)
Theorem resend_rate_limited_iff form db now value self user a :
  is_resend form = true ->
  resolves db (lookup form value) user ->
  is_active user = false ->
  QuerySet.first (activation_set db user) = Some a ->
  (fails_with RateLimited (fst (clean_identifier form db now value self))
     <-> created_at a > now - hours_24)
  /\ (fst (clean_identifier form db now value self) = Return value
     <-> now - created_at a >= hours_24).
Proof.
  intros Hform Hres Hact Ha.
  rewrite (resend_after_lookup form db now value self user a) by assumption.
  destruct (created_at a >? now - hours_24) eqn:Hcmp; simpl.
  - apply Z.gtb_lt in Hcmp. repeat split; try lia.
    + destruct form; try discriminate Hform; reflexivity.
    + discriminate.
  - assert (created_at a <= now - hours_24).
    { destruct (Z.gtb_spec (created_at a) (now - hours_24)); [discriminate|lia]. }
    repeat split; try lia; try contradiction. 
Qed.

Lemma resend_rate_limited_iff_witness :
  (fails_with RateLimited
     (fst (clean_identifier ResendActivationCodeForm example_db (20 * hour)
             "dave" new_form))
     <-> created_at dave_only > 20 * hour - hours_24)
  /\ (fst (clean_identifier ResendActivationCodeViaEmailForm example_db
             (34 * hour) "DAVE@example.com" new_form)
        = Return "DAVE@example.com"
     <-> 34 * hour - created_at dave_only >= hours_24).
Proof.
  split.
  - apply (resend_rate_limited_iff ResendActivationCodeForm example_db
             (20 * hour) "dave" new_form dave dave_only);
      reflexivity.
  - apply (resend_rate_limited_iff ResendActivationCodeViaEmailForm example_db
             (34 * hour) "DAVE@example.com" new_form dave dave_only);
      reflexivity.
Defined.

Lemma latest_In (acts : list Activation) (a : Activation) :
  latest acts = Some a -> In a acts.
Proof.
  revert a. induction acts as [|x rest IH]; simpl; [discriminate|].
  intros a. destruct (latest rest) as [b|].
  - destruct (created_at b >? created_at x); intros [= <-]; auto.
  - intros [= <-]. auto.
Qed.

(** On a query set that lists newer activations first, [first()] is the
    most recent activation. *)
Lemma latest_newest_first (acts : list Activation) :
  newest_first acts -> latest acts = QuerySet.first acts.
Proof.
  destruct acts as [|a rest]; simpl; [reflexivity|].
  intros [Hle _]. destruct (latest rest) as [b|] eqn:Hb; [|reflexivity].
  apply latest_In in Hb. specialize (Hle b Hb).
  destruct (Z.gtb_spec (created_at b) (created_at a)); [lia|reflexivity].
Qed.

(** The resend forms read the activation table through
    [activation_set.first()] only. *)
Lemma resend_reads_first_only form db db' now value self :
  is_resend form = true ->
  users db' = users db ->
  (forall user, QuerySet.first (activation_set db' user)
                = QuerySet.first (activation_set db user)) ->
  clean_identifier form db' now value self
  = clean_identifier form db now value self.
Proof.
  intros Hform Hu Hfirst.
  destruct form; try discriminate Hform; unfold_clean;
    unfold User_objects_filter; rewrite Hu;
    destruct (QuerySet.first (filter _ (users db))) as [user|];
    try reflexivity; rewrite Hfirst; reflexivity.
Qed.

(** C2, as the specification states it, fails: bob's activations are
    one made at hour 0 and one made at hour 100, in that query order. At
    hour 101 the most recent one is an hour old, yet the resend is
    accepted, because the form compares the first one. *)
Lemma cooldown_not_on_latest_activation :
  resolves example_db (lookup ResendActivationCodeForm "bob") bob
  /\ is_active bob = false
  /\ latest (activation_set example_db bob) = Some bob_new
  /\ created_at bob_new > 101 * hour - hours_24
  /\ clean_identifier ResendActivationCodeForm example_db (101 * hour) "bob"
       new_form
     = (Return "bob", mkForm (Some bob)).
Proof. repeat split. Qed.

(** C2, amended. The cooldown check of the resend forms is evaluated
    against [activation_set.first()], the first activation request of the
    identity in query order, and no other activation request affects the
    outcome; where the query order lists newer requests first, that
    request is the most recent one. *)
Theorem resend_consults_first_activation form db now value self :
  is_resend form = true ->
  (forall db',
      users db' = users db ->
      (forall user, QuerySet.first (activation_set db' user)
                    = QuerySet.first (activation_set db user)) ->
      clean_identifier form db' now value self
      = clean_identifier form db now value self)
  /\ (forall user a,
      resolves db (lookup form value) user ->
      is_active user = false ->
      newest_first (activation_set db user) ->
      latest (activation_set db user) = Some a ->
      (fails_with RateLimited (fst (clean_identifier form db now value self))
       <-> created_at a > now - hours_24)).
Proof.
  intros Hform. split.
  - intros db'. apply resend_reads_first_only. exact Hform.
  - intros user a Hres Hact Hsorted Hlatest.
    rewrite (latest_newest_first _ Hsorted) in Hlatest.
    rewrite (resend_after_lookup form db now value self user a) by assumption.
    destruct (Z.gtb_spec (created_at a) (now - hours_24)); simpl.
    + split; [lia|]. intros _.
      destruct form; try discriminate Hform; reflexivity.
    + split; [contradiction | lia].
Qed.

Lemma resend_consults_first_activation_witness :
  clean_identifier ResendActivationCodeForm
    (mkDatabase (users example_db) [bob_old; dave_only]) (101 * hour) "bob"
    new_form
  = clean_identifier ResendActivationCodeForm example_db (101 * hour) "bob"
      new_form
  /\ (fails_with RateLimited
        (fst (clean_identifier ResendActivationCodeForm example_db (20 * hour)
                "dave" new_form))
      <-> created_at dave_only > 20 * hour - hours_24).
Proof.
  destruct (resend_consults_first_activation ResendActivationCodeForm
              example_db (101 * hour) "bob" new_form eq_refl) as [Hsame _].
  destruct (resend_consults_first_activation ResendActivationCodeForm
              example_db (20 * hour) "dave" new_form eq_refl) as [_ Hlatest].
  split.
  - apply Hsame; [reflexivity|].
    intros [i n e p act].
    unfold activation_set, example_db, bob_old, bob_new, dave_only.
    cbn [filter activations user_id id].
    destruct (2 =? i); destruct (4 =? i); reflexivity.
  - apply (Hlatest dave dave_only); try reflexivity.
    simpl. split; [intros b []|exact I].
Defined.

(** ** Signing in *)

(** C3. With the identity resolved, a candidate password that does not
    match the stored hash makes password cleaning fail with the
    wrong-password error, and a matching password is returned unchanged;
    the form is left as it was either way. *)
Theorem clean_password_checks_hash
    (check_password : User -> string -> bool) user candidate self :
  user_cache self = Some user ->
  (check_password user candidate = false ->
     SignIn_clean_password check_password candidate self
     = (Raise WrongPassword, self)
     /\ kind WrongPassword = InvalidCredential)
  /\ (check_password user candidate = true ->
     SignIn_clean_password check_password candidate self
     = (Return candidate, self)).
Proof.
  intros Hcache.
  unfold SignIn_clean_password, bind, get_user_cache, ret, raise.
  rewrite Hcache.
  split; intros ->; simpl; auto.
Qed.

Lemma clean_password_checks_hash_witness :
  (SignIn_clean_password plain_check "guess" (mkForm (Some alice))
   = (Raise WrongPassword, mkForm (Some alice))
   /\ kind WrongPassword = InvalidCredential)
  /\ SignIn_clean_password plain_check "pw-alice" (mkForm (Some alice))
     = (Return "pw-alice", mkForm (Some alice)).
Proof.
  split.
  - apply (clean_password_checks_hash plain_check alice "guess"
             (mkForm (Some alice)) eq_refl).
    reflexivity.
  - apply (clean_password_checks_hash plain_check alice "pw-alice"
             (mkForm (Some alice)) eq_refl).
    reflexivity.
Defined.

(** Without a resolved identity the password is not checked at all. *)
Lemma clean_password_without_identity
    (check_password : User -> string -> bool) candidate self :
  user_cache self = None ->
  SignIn_clean_password check_password candidate self
  = (Return candidate, self).
Proof.
  intros Hcache.
  unfold SignIn_clean_password, bind, get_user_cache, ret.
  rewrite Hcache. reflexivity.
Qed.

(** C4. For each of the three sign-in forms: when no identity record
    matches the identifier, cleaning fails with a not-found error; when
    the resolved record is not active, it fails with the not-activated
    error; otherwise it returns the identifier and caches the resolved
    user. A failure leaves the form as it was. *)
Theorem sign_in_identifier_outcomes form db now value self :
  is_sign_in form = true ->
  (no_match db (lookup form value) ->
     fails_with NotFound (fst (clean_identifier form db now value self))
     /\ snd (clean_identifier form db now value self) = self)
  /\ (forall user,
      resolves db (lookup form value) user ->
      is_active user = false ->
      clean_identifier form db now value self = (Raise NotActiveYet, self)
      /\ kind NotActiveYet = NotActivated)
  /\ (forall user,
      resolves db (lookup form value) user ->
      is_active user = true ->
      clean_identifier form db now value self
      = (Return value, mkForm (Some user))).
Proof.
  intros Hform. unfold resolves, no_match. split; [|split].
  - intros Hnone.
    apply (first_filter_None (lookup form value) (users db)) in Hnone.
    fold (User_objects_filter db (lookup form value)) in Hnone.
    destruct form; try discriminate Hform; unfold_clean; simpl in Hnone;
      rewrite Hnone; split; reflexivity.
  - intros user Hres Hact.
    destruct form; try discriminate Hform; unfold_clean; simpl in Hres;
      rewrite Hres, Hact; split; reflexivity.
  - intros user Hres Hact.
    destruct form; try discriminate Hform; unfold_clean; simpl in Hres;
      rewrite Hres, Hact; reflexivity.
Qed.

Lemma sign_in_identifier_outcomes_witness :
  (fails_with NotFound
     (fst (clean_identifier SignInViaUsernameForm example_db 0 "erin" new_form))
   /\ snd (clean_identifier SignInViaUsernameForm example_db 0 "erin" new_form)
      = new_form)
  /\ (clean_identifier SignInViaEmailOrUsernameForm example_db 0 "bob" new_form
      = (Raise NotActiveYet, new_form)
      /\ kind NotActiveYet = NotActivated)
  /\ clean_identifier SignInViaEmailForm example_db 0 "alice@example.com"
       new_form
     = (Return "alice@example.com", mkForm (Some alice)).
Proof.
  destruct (sign_in_identifier_outcomes SignInViaUsernameForm example_db 0
              "erin" new_form eq_refl) as (Hnone & _ & _).
  destruct (sign_in_identifier_outcomes SignInViaEmailOrUsernameForm example_db
              0 "bob" new_form eq_refl) as (_ & Hinactive & _).
  destruct (sign_in_identifier_outcomes SignInViaEmailForm example_db 0
              "alice@example.com" new_form eq_refl) as (_ & _ & Hactive).
  split; [|split].
  - apply Hnone. intros u Hu. simpl in Hu.
    destruct Hu as [<-|[<-|[<-|[<-|[]]]]]; reflexivity.
  - apply (Hinactive bob); reflexivity.
  - apply (Hactive alice); reflexivity.
Defined.

(** ** The required activation state *)

(** C5. Resending an activation code requires an account that is NOT
    active: when the resolved record is active both resend forms fail
    with a validation error and leave the form as it was, so a resend
    goes through only for an inactive account. Signing in requires the
    opposite: an inactive resolved record fails, an active one passes. *)
Theorem active_flag_requirements form db now value self user :
  resolves db (lookup form value) user ->
  (is_resend form = true ->
     (is_active user = true ->
        fails (fst (clean_identifier form db now value self))
        /\ snd (clean_identifier form db now value self) = self)
     /\ (forall v, fst (clean_identifier form db now value self) = Return v ->
        is_active user = false))
  /\ (is_sign_in form = true ->
     (is_active user = false ->
        fails (fst (clean_identifier form db now value self)))
     /\ (is_active user = true ->
        fst (clean_identifier form db now value self) = Return value)).
Proof.
  unfold resolves. intros Hres. split; intros Hform.
  - split.
    + intros Hact.
      destruct form; try discriminate Hform; unfold_clean; simpl in Hres;
        rewrite Hres, Hact; split; exact I || reflexivity.
    + intros v.
      destruct form; try discriminate Hform; unfold_clean; simpl in Hres;
        rewrite Hres; destruct (is_active user); simpl;
        solve [discriminate | reflexivity].
  - split; intros Hact;
      destruct form; try discriminate Hform; unfold_clean; simpl in Hres;
      rewrite Hres, Hact; exact I || reflexivity.
Qed.

Lemma active_flag_requirements_witness :
  (fails (fst (clean_identifier ResendActivationCodeForm example_db
                 (200 * hour) "alice" new_form))
   /\ snd (clean_identifier ResendActivationCodeForm example_db
             (200 * hour) "alice" new_form) = new_form)
  /\ fails (fst (clean_identifier SignInViaUsernameForm example_db
                   (200 * hour) "bob" new_form))
  /\ fst (clean_identifier SignInViaUsernameForm example_db
            (200 * hour) "alice" new_form) = Return "alice".
Proof.
  destruct (active_flag_requirements ResendActivationCodeForm example_db
              (200 * hour) "alice" new_form alice eq_refl) as [Hresend _].
  destruct (active_flag_requirements SignInViaUsernameForm example_db
              (200 * hour) "bob" new_form bob eq_refl) as [_ Hbob].
  destruct (active_flag_requirements SignInViaUsernameForm example_db
              (200 * hour) "alice" new_form alice eq_refl) as [_ Halice].
  split; [|split].
  - apply (proj1 (Hresend eq_refl)). reflexivity.
  - apply (proj1 (Hbob eq_refl)). reflexivity.
  - apply (proj2 (Halice eq_refl)). reflexivity.
Defined.

(** C7. A resend request whose resolved identity is not active and has
    no activation record at all fails with the activation-code-not-found
    error, and the form is left as it was. Both resend forms. *)
Theorem resend_without_activation_record form db now value self user :
  is_resend form = true ->
  resolves db (lookup form value) user ->
  is_active user = false ->
  activation_set db user = [] ->
  fails_with NoActivationRecord
    (fst (clean_identifier form db now value self))
  /\ snd (clean_identifier form db now value self) = self.
Proof.
  unfold resolves. intros Hform Hres Hact Hnone.
  destruct form; try discriminate Hform; unfold_clean; simpl in Hres;
    rewrite Hres, Hact, Hnone; split; reflexivity.
Qed.

Lemma resend_without_activation_record_witness :
  fails_with NoActivationRecord
    (fst (clean_identifier ResendActivationCodeViaEmailForm example_db
            (200 * hour) "Carol@example.com" new_form))
  /\ snd (clean_identifier ResendActivationCodeViaEmailForm example_db
            (200 * hour) "Carol@example.com" new_form) = new_form.
Proof.
  apply (resend_without_activation_record ResendActivationCodeViaEmailForm
           example_db (200 * hour) "Carol@example.com" new_form carol);
    reflexivity.
Defined.

(** ** The user cache *)

(** The clean method that resolves the identity assigns the cache last:
    when it raises, the form is exactly as before; when it returns, the
    cache holds the resolved user, who passed every check. *)
Lemma resolver_assigns_cache_last form db now value self :
  match clean_identifier form db now value self with
  | (Raise _, self') => self' = self
  | (Return v, self') =>
      v = value
      /\ exists user,
          user_cache self' = Some user
          /\ resolves db (lookup form value) user
          /\ is_active user = negb (is_resend form)
          /\ (if is_resend form
              then exists a,
                  QuerySet.first (activation_set db user) = Some a
                  /\ created_at a <= now - hours_24
              else True)
  end
  /\ match clean_identifier form db now value new_form with
     | (Raise _, self') => user_cache self' = None
     | (Return _, _) => True
     end.
Proof.
  unfold resolves.
  split; destruct form; unfold_clean; simpl;
    (destruct (QuerySet.first (User_objects_filter db _)) as [user|] eqn:Hres;
     [|reflexivity]);
    destruct (is_active user) eqn:Hact; simpl;
    try reflexivity; try exact I;
    try (split; [reflexivity|]; exists user; repeat split; assumption);
    (destruct (QuerySet.first (activation_set db user)) as [a|] eqn:Ha;
     [|reflexivity]);
    destruct (Z.gtb_spec (created_at a) (now - hours_24));
    try reflexivity; try exact I;
    (split; [reflexivity|]); exists user; repeat split; try assumption;
    exists a; (split; [exact Ha|lia]).
Qed.

(** Password cleaning never touches the cache. *)
Lemma clean_password_keeps_cache
    (check_password : User -> string -> bool) candidate self :
  snd (SignIn_clean_password check_password candidate self) = self.
Proof.
  unfold SignIn_clean_password, bind, get_user_cache, ret, raise.
  destruct (user_cache self) as [user|]; simpl; [|reflexivity].
  destruct (check_password user candidate); reflexivity.
Qed.

(** C9, as the specification states it, fails: on a sign-in form a
    validation error can be raised while the cache holds a user. alice
    signs in by user name with a wrong password: [clean_username] caches
    her, then [clean_password] raises the wrong-password error, and the
    cache still holds her. *)
Lemma wrong_password_raised_with_user_cached :
  clean_identifier SignInViaUsernameForm example_db 0 "alice" new_form
  = (Return "alice", mkForm (Some alice))
  /\ SignIn_clean_password plain_check "guess" (mkForm (Some alice))
     = (Raise WrongPassword, mkForm (Some alice))
  /\ full_clean plain_check example_db 0 SignInViaUsernameForm "alice" "guess"
       false
     = ([("password", WrongPassword)], mkForm (Some alice))
  /\ user_cache (mkForm (Some alice)) <> None.
Proof. repeat split. discriminate. Qed.

(** C9, amended. In every form that carries a [user_cache], the clean
    method that resolves the identity assigns the cache only after all of
    its checks succeeded: whenever that method raises a validation error
    the form is exactly as before (on a new form the cache is still
    [None]), so a failed resolution never leaves a partially resolved
    identity; when it returns, the cache holds the resolved user, who
    passed the activation-state check and, for a resend, the
    activation-record and cooldown checks. [SignIn.clean_password] never
    changes the cache, whether it raises or returns. *)
Theorem user_cache_assigned_last form db now value self :
  match clean_identifier form db now value self with
  | (Raise _, self') => self' = self
  | (Return v, self') =>
      v = value
      /\ exists user,
          user_cache self' = Some user
          /\ resolves db (lookup form value) user
          /\ is_active user = negb (is_resend form)
          /\ (if is_resend form
              then exists a,
                  QuerySet.first (activation_set db user) = Some a
                  /\ created_at a <= now - hours_24
              else True)
  end
  /\ match clean_identifier form db now value new_form with
     | (Raise _, self') => user_cache self' = None
     | (Return _, _) => True
     end
  /\ (forall (check_password : User -> string -> bool) candidate,
      snd (SignIn_clean_password check_password candidate self) = self).
Proof.
  destruct (resolver_assigns_cache_last form db now value self)
    as [Hany Hnew].
  split; [exact Hany|]. split; [exact Hnew|].
  intros check_password candidate. apply clean_password_keeps_cache.
Qed.

(** ** E-mail addresses stay unique *)

(** C6. When an identity record holds the address [E], sign-up e-mail
    cleaning rejects every candidate equal to [E] up to letter case. *)
Theorem sign_up_rejects_registered_email db candidate u :
  In u (users db) ->
  iexact (email u) candidate = true ->
  SignUpForm_clean_email db candidate = Raise EmailNotAvailable
  /\ kind EmailNotAvailable = EmailTaken.
Proof.
  intros Hin Heq. unfold SignUpForm_clean_email, User_objects_filter.
  assert (Hex : QuerySet.exists_ (filter (Q_email_iexact candidate) (users db))
                = true)
    by (apply exists_filter_true; exists u; auto).
  rewrite Hex. split; reflexivity.
Qed.

Lemma sign_up_rejects_registered_email_witness :
  SignUpForm_clean_email example_db "ALICE@example.COM"
  = Raise EmailNotAvailable
  /\ kind EmailNotAvailable = EmailTaken.
Proof.
  apply (sign_up_rejects_registered_email example_db "ALICE@example.COM" alice).
  - simpl. auto.
  - reflexivity.
Defined.

(** An address no record holds, in any letter case, passes. *)
Lemma sign_up_accepts_fresh_email db candidate :
  no_match db (Q_email_iexact candidate) ->
  SignUpForm_clean_email db candidate = Return candidate.
Proof.
  intros Hnone. unfold SignUpForm_clean_email, User_objects_filter.
  apply exists_filter_false in Hnone. rewrite Hnone. reflexivity.
Qed.

(** The existence check of the e-mail change is negative when every row
    holding the candidate address has the user's own id. *)
Lemma change_email_own_rows_only db self_user candidate :
  (forall u, In u (users db) -> iexact (email u) candidate = true ->
             id u = id self_user) ->
  QuerySet.exists_
    (User_objects_filter db (Q_email_iexact_excluding candidate (id self_user)))
  = false.
Proof.
  intros Hown. apply exists_filter_false. intros u Hu.
  unfold Q_email_iexact_excluding, Q_email_iexact.
  destruct (iexact (email u) candidate) eqn:Heq; [|reflexivity].
  rewrite (Hown u Hu Heq), Z.eqb_refl. reflexivity.
Qed.

(** C8. The e-mail change is rejected when a record with an id other
    than the user's holds an address equal to the candidate up to letter
    case; the user's own record is never counted: when only rows with the
    user's id hold the candidate, a candidate that differs from the
    current address is accepted. *)
Theorem change_email_excludes_own_record db self_user candidate :
  (forall other,
      In other (users db) ->
      id other <> id self_user ->
      iexact (email other) candidate = true ->
      fails (ChangeEmailForm_clean_email db self_user candidate)
      /\ (candidate <> email self_user ->
          ChangeEmailForm_clean_email db self_user candidate
          = Raise EmailNotAvailable))
  /\ ((forall u, In u (users db) -> iexact (email u) candidate = true ->
                 id u = id self_user) ->
      candidate <> email self_user ->
      ChangeEmailForm_clean_email db self_user candidate = Return candidate).
Proof.
  unfold ChangeEmailForm_clean_email. split.
  - intros other Hin Hid Heq.
    assert (Hex : QuerySet.exists_
              (User_objects_filter db
                 (Q_email_iexact_excluding candidate (id self_user))) = true).
    { apply exists_filter_true. exists other. split; [exact Hin|].
      unfold Q_email_iexact_excluding, Q_email_iexact. rewrite Heq.
      apply Z.eqb_neq in Hid. rewrite Hid. reflexivity. }
    rewrite Hex.
    destruct (String.eqb_spec candidate (email self_user)) as [E|E]; simpl.
    + split; [exact I|]. intros Hne. contradiction.
    + split; [exact I|reflexivity].
  - intros Hown Hne.
    rewrite (change_email_own_rows_only db self_user candidate Hown).
    destruct (String.eqb_spec candidate (email self_user)); [contradiction|].
    reflexivity.
Qed.

Lemma change_email_excludes_own_record_witness :
  fails (ChangeEmailForm_clean_email example_db bob "alice@example.com")
  /\ ChangeEmailForm_clean_email example_db bob "alice@example.com"
     = Raise EmailNotAvailable
  /\ ChangeEmailForm_clean_email example_db bob "Bob@Example.com"
     = Return "Bob@Example.com".
Proof.
  destruct (change_email_excludes_own_record example_db bob "alice@example.com")
    as [Hother _].
  destruct (change_email_excludes_own_record example_db bob "Bob@Example.com")
    as [_ Hown].
  assert (Halice : In alice (users example_db)) by (simpl; auto).
  assert (Hid : id alice <> id bob) by (simpl; lia).
  destruct (Hother alice Halice Hid eq_refl) as [Hfails Hmsg].
  split; [exact Hfails|split].
  - apply Hmsg. vm_compute. discriminate.
  - apply Hown.
    + intros u Hu Heq. simpl in Hu.
      destruct Hu as [<-|[<-|[<-|[<-|[]]]]];
        solve [reflexivity | vm_compute in Heq; discriminate Heq].
    + vm_compute. discriminate.
Defined.

(** C10. The same-address test of the e-mail change compares letter for
    letter and the uniqueness test leaves the user's own record out; so,
    on a user table whose addresses are unique up to letter case, a user
    who submits the current address in another letter case passes e-mail
    cleaning. *)
Theorem change_email_accepts_own_email_recased db self_user candidate :
  In self_user (users db) ->
  emails_unique db ->
  candidate <> email self_user ->
  iexact candidate (email self_user) = true ->
  ChangeEmailForm_clean_email db self_user candidate = Return candidate.
Proof.
  intros Hin Huniq Hne Hcase. unfold ChangeEmailForm_clean_email.
  destruct (String.eqb_spec candidate (email self_user)); [contradiction|].
  rewrite change_email_own_rows_only; [reflexivity|].
  intros u Hu Heq. apply Huniq; try assumption.
  apply (iexact_trans _ candidate); assumption.
Qed.

Lemma change_email_accepts_own_email_recased_witness :
  ChangeEmailForm_clean_email example_db alice "alice@example.com"
  = Return "alice@example.com".
Proof.
  apply (change_email_accepts_own_email_recased example_db alice
           "alice@example.com").
  - simpl. auto.
  - intros u v Hu Hv Heq. simpl in Hu, Hv.
    destruct Hu as [<-|[<-|[<-|[<-|[]]]]];
      destruct Hv as [<-|[<-|[<-|[<-|[]]]]];
      solve [reflexivity | vm_compute in Heq; discriminate Heq].
  - vm_compute. discriminate.
  - reflexivity.
Defined.

(** ** The methods at work *)

(** dave asked for a code at hour 10: a resend at hour 20 is refused, one
    at hour 34, exactly 24 hours later, goes through. *)
Example resend_dave_too_early :
  clean_identifier ResendActivationCodeForm example_db (20 * hour) "dave"
    new_form
  = (Raise CodeAlreadySent, new_form).
Proof. reflexivity. Qed.

Example resend_dave_at_24_hours :
  clean_identifier ResendActivationCodeForm example_db (34 * hour) "dave"
    new_form
  = (Return "dave", mkForm (Some dave)).
Proof. reflexivity. Qed.

Example resend_dave_just_before_24_hours :
  clean_identifier ResendActivationCodeViaEmailForm example_db
    (34 * hour - 1) "dave@example.com" new_form
  = (Raise CodeAlreadySent', new_form).
Proof. reflexivity. Qed.

(** An active account cannot ask for a code; the two resend forms word
    the refusal differently. *)
Example resend_alice_by_name :
  clean_identifier ResendActivationCodeForm example_db 0 "alice" new_form
  = (Raise NotActiveYet, new_form).
Proof. reflexivity. Qed.

Example resend_alice_by_email :
  clean_identifier ResendActivationCodeViaEmailForm example_db 0
    "alice@example.com" new_form
  = (Raise AlreadyActivated, new_form).
Proof. reflexivity. Qed.

(** The user's own address, letter for letter, is refused. *)
Example change_email_same_address :
  ChangeEmailForm_clean_email example_db alice "Alice@Example.com"
  = Raise EnterAnotherEmail.
Proof. reflexivity. Qed.

Example upper_mixed : upper "Alice@Example.com" = "ALICE@EXAMPLE.COM".
Proof. reflexivity. Qed.

(** ** Restoring a password, reminding a user name *)

(** X1. The two restore-password forms and the remind-username form treat
    their identifier like the sign-in forms do: no matching record is a
    not-found error, a resolved record that is not active is the
    not-activated error, and otherwise the identifier is returned and the
    resolved user cached. A failure leaves the form as it was. *)
Theorem restore_remind_outcomes form db now value self :
  is_sign_in form = false ->
  is_resend form = false ->
  (no_match db (lookup form value) ->
     fails_with NotFound (fst (clean_identifier form db now value self))
     /\ snd (clean_identifier form db now value self) = self)
  /\ (forall user,
      resolves db (lookup form value) user ->
      is_active user = false ->
      clean_identifier form db now value self = (Raise NotActiveYet, self))
  /\ (forall user,
      resolves db (lookup form value) user ->
      is_active user = true ->
      clean_identifier form db now value self
      = (Return value, mkForm (Some user))).
Proof.
  intros Hsign Hresend. unfold resolves, no_match. split; [|split].
  - intros Hnone.
    apply (first_filter_None (lookup form value) (users db)) in Hnone.
    fold (User_objects_filter db (lookup form value)) in Hnone.
    destruct form; try discriminate Hsign; try discriminate Hresend;
      unfold_clean; simpl in Hnone; rewrite Hnone; split; reflexivity.
  - intros user Hres Hact.
    destruct form; try discriminate Hsign; try discriminate Hresend;
      unfold_clean; simpl in Hres; rewrite Hres, Hact; reflexivity.
  - intros user Hres Hact.
    destruct form; try discriminate Hsign; try discriminate Hresend;
      unfold_clean; simpl in Hres; rewrite Hres, Hact; reflexivity.
Qed.

Lemma restore_remind_outcomes_witness :
  (fails_with NotFound
     (fst (clean_identifier RemindUsernameForm example_db 0 "erin@example.com"
             new_form))
   /\ snd (clean_identifier RemindUsernameForm example_db 0 "erin@example.com"
             new_form) = new_form)
  /\ clean_identifier RestorePasswordForm example_db 0 "BOB@example.com"
       new_form
     = (Raise NotActiveYet, new_form)
  /\ clean_identifier RestorePasswordViaEmailOrUsernameForm example_db 0
       "alice" new_form
     = (Return "alice", mkForm (Some alice)).
Proof.
  destruct (restore_remind_outcomes RemindUsernameForm example_db 0
              "erin@example.com" new_form eq_refl eq_refl) as (Hnone & _ & _).
  destruct (restore_remind_outcomes RestorePasswordForm example_db 0
              "BOB@example.com" new_form eq_refl eq_refl)
    as (_ & Hinactive & _).
  destruct (restore_remind_outcomes RestorePasswordViaEmailOrUsernameForm
              example_db 0 "alice" new_form eq_refl eq_refl)
    as (_ & _ & Hactive).
  split; [|split].
  - apply Hnone. intros u Hu. simpl in Hu.
    destruct Hu as [<-|[<-|[<-|[<-|[]]]]]; reflexivity.
  - apply (Hinactive bob); reflexivity.
  - apply (Hactive alice); reflexivity.
Defined.

(** ** Resending an activation code: the checks before the cooldown *)

(** X2. A resend request that matches no identity record fails with a
    not-found error, whatever the time and the activation table hold, and
    leaves the form as it was. Both resend forms. *)
Theorem resend_unknown_identity form db now value self :
  is_resend form = true ->
  no_match db (lookup form value) ->
  fails_with NotFound (fst (clean_identifier form db now value self))
  /\ snd (clean_identifier form db now value self) = self.
Proof.
  intros Hform Hnone.
  apply (first_filter_None (lookup form value) (users db)) in Hnone.
  fold (User_objects_filter db (lookup form value)) in Hnone.
  destruct form; try discriminate Hform; unfold_clean; simpl in Hnone;
    rewrite Hnone; split; reflexivity.
Qed.

Lemma resend_unknown_identity_witness :
  fails_with NotFound
    (fst (clean_identifier ResendActivationCodeForm example_db (50 * hour)
            "erin" new_form))
  /\ snd (clean_identifier ResendActivationCodeForm example_db (50 * hour)
            "erin" new_form) = new_form.
Proof.
  apply (resend_unknown_identity ResendActivationCodeForm example_db
           (50 * hour) "erin" new_form eq_refl).
  intros u Hu. simpl in Hu.
  destruct Hu as [<-|[<-|[<-|[<-|[]]]]]; reflexivity.
Defined.

(** X3. For an account that is already active the two resend forms raise
    different errors, before looking at any activation record: the form
    that takes an e-mail address or user name says the account is not
    active yet, the form that takes an e-mail address says it has already
    been activated. *)
Theorem resend_active_account_messages db now value self user :
  is_active user = true ->
  (resolves db (Q_username_or_email value) user ->
     ResendActivationCodeForm_clean_email_or_username db now value self
     = (Raise NotActiveYet, self))
  /\ (resolves db (Q_email_iexact value) user ->
     ResendActivationCodeViaEmailForm_clean_email db now value self
     = (Raise AlreadyActivated, self)).
Proof.
  intros Hact. unfold resolves. split; intros Hres; unfold_clean;
    rewrite Hres, Hact; reflexivity.
Qed.

Lemma resend_active_account_messages_witness :
  ResendActivationCodeForm_clean_email_or_username example_db (50 * hour)
    "alice@example.com" new_form
  = (Raise NotActiveYet, new_form)
  /\ ResendActivationCodeViaEmailForm_clean_email example_db (50 * hour)
       "alice@example.com" new_form
     = (Raise AlreadyActivated, new_form).
Proof.
  destruct (resend_active_account_messages example_db (50 * hour)
              "alice@example.com" new_form alice eq_refl) as [Hfirst Hsecond].
  split; [apply Hfirst | apply Hsecond]; reflexivity.
Defined.

(** X4. A resend request is accepted, with [user] cached, exactly when
    the look-up resolves [user], the account is not active, it has a
    first activation record, and that record is at least 24 hours old. *)
Theorem resend_accepted_iff form db now value self user :
  is_resend form = true ->
  (clean_identifier form db now value self = (Return value, mkForm (Some user))
   <-> resolves db (lookup form value) user
       /\ is_active user = false
       /\ exists a, QuerySet.first (activation_set db user) = Some a
                    /\ created_at a + hours_24 <= now).
Proof.
  intros Hform. split.
  - unfold resolves.
    destruct form; try discriminate Hform; unfold_clean; simpl;
      (destruct (QuerySet.first (User_objects_filter db _)) as [u|];
       [|discriminate]);
      destruct (is_active u) eqn:Hact; [discriminate| |discriminate|];
      (destruct (QuerySet.first (activation_set db u)) as [a|] eqn:Ha;
       [|discriminate]);
      (destruct (Z.gtb_spec (created_at a) (now - hours_24));
       [discriminate|]);
      intros [= <-]; repeat split; try assumption;
      exists a; (split; [exact Ha|lia]).
  - intros (Hres & Hact & a & Ha & Hage).
    rewrite (resend_after_lookup form db now value self user a) by assumption.
    destruct (Z.gtb_spec (created_at a) (now - hours_24)); [lia|reflexivity].
Qed.

Lemma resend_accepted_iff_witness :
  clean_identifier ResendActivationCodeForm example_db (34 * hour) "dave"
    new_form
  = (Return "dave", mkForm (Some dave)).
Proof.
  apply (proj2 (resend_accepted_iff ResendActivationCodeForm example_db
                  (34 * hour) "dave" new_form dave eq_refl)).
  split; [reflexivity|]. split; [reflexivity|].
  exists dave_only. split; [reflexivity|]. vm_compute. discriminate.
Defined.

(** X5. Waiting never hurts: an identifier that a form accepts at some
    time is accepted, with the same user cached, at every later time on
    the same tables. *)
Theorem accepted_stays_accepted form db now later value self self' :
  now <= later ->
  clean_identifier form db now value self = (Return value, self') ->
  clean_identifier form db later value self = (Return value, self').
Proof.
  intros Hlater.
  destruct form; unfold_clean; try (intros Hret; exact Hret);
    (destruct (QuerySet.first (User_objects_filter db _)) as [u|];
     [|discriminate]);
    (destruct (is_active u); [discriminate|]);
    (destruct (QuerySet.first (activation_set db u)) as [a|];
     [|discriminate]);
    (destruct (Z.gtb_spec (created_at a) (now - hours_24));
     [discriminate|]);
    (destruct (Z.gtb_spec (created_at a) (later - hours_24)); [lia|]);
    intros Hret; exact Hret.
Qed.

Lemma accepted_stays_accepted_witness :
  clean_identifier ResendActivationCodeViaEmailForm example_db (500 * hour)
    "dave@example.com" new_form
  = (Return "dave@example.com", mkForm (Some dave)).
Proof.
  apply (accepted_stays_accepted ResendActivationCodeViaEmailForm example_db
           (34 * hour) (500 * hour) "dave@example.com" new_form
           (mkForm (Some dave))).
  - vm_compute. discriminate.
  - reflexivity.
Defined.

(** ** What a look-up resolves *)

Lemma Q_email_iexact_recased value value' :
  iexact value value' = true ->
  forall u, Q_email_iexact value u = Q_email_iexact value' u.
Proof.
  unfold Q_email_iexact, iexact. intros H u.
  apply String.eqb_eq in H. rewrite H. reflexivity.
Qed.

Lemma filter_recased value value' (l : list User) :
  iexact value value' = true ->
  filter (Q_email_iexact value) l = filter (Q_email_iexact value') l.
Proof.
  intros H. apply filter_ext. apply Q_email_iexact_recased. exact H.
Qed.

(** X6. The forms that look the identity up by e-mail address do not
    care about the letter case of what is submitted: two spellings equal
    up to case leave the same form state and raise the same error or
    both pass; a form that passes returns the address as it was typed. *)
Theorem email_lookup_ignores_case form db now value value' self :
  looks_up_by_email form = true ->
  iexact value value' = true ->
  snd (clean_identifier form db now value' self)
  = snd (clean_identifier form db now value self)
  /\ (forall m, fst (clean_identifier form db now value self) = Raise m
           <-> fst (clean_identifier form db now value' self) = Raise m)
  /\ (fst (clean_identifier form db now value self) = Return value
      <-> fst (clean_identifier form db now value' self) = Return value').
Proof.
  intros Hform Hcase.
  destruct form; try discriminate Hform; unfold_clean;
    unfold User_objects_filter;
    rewrite (filter_recased value value' (users db) Hcase);
    (destruct (QuerySet.first (filter _ (users db))) as [u|];
     [|simpl; repeat split; intros; solve [assumption | discriminate]]);
    destruct (is_active u); simpl;
    try (repeat split; intros; solve [assumption | discriminate | reflexivity]);
    (destruct (QuerySet.first (activation_set db u)) as [a|];
     [|simpl; repeat split; intros; solve [assumption | discriminate]]);
    destruct (created_at a >? now - hours_24); simpl;
    repeat split; intros; solve [assumption | discriminate | reflexivity].
Qed.

Lemma email_lookup_ignores_case_witness :
  snd (clean_identifier SignInViaEmailForm example_db 0 "ALICE@EXAMPLE.COM"
         new_form)
  = snd (clean_identifier SignInViaEmailForm example_db 0 "alice@example.com"
           new_form)
  /\ (fst (clean_identifier SignInViaEmailForm example_db 0 "alice@example.com"
             new_form) = Return "alice@example.com"
      <-> fst (clean_identifier SignInViaEmailForm example_db 0
                 "ALICE@EXAMPLE.COM" new_form) = Return "ALICE@EXAMPLE.COM").
Proof.
  destruct (email_lookup_ignores_case SignInViaEmailForm example_db 0
              "alice@example.com" "ALICE@EXAMPLE.COM" new_form
              eq_refl eq_refl) as (Hstate & _ & Hpass).
  split; [exact Hstate | exact Hpass].
Defined.

(** X7. A form never caches a user it did not find: when a clean method
    returns, the cached user is a row of the user table whose user name
    is the submitted value, letter for letter, or whose e-mail address
    equals it up to letter case; the forms that look up by e-mail address
    alone cache a user with that address, the user-name form one with
    that name. *)
Theorem cached_user_matches form db now value self v self' :
  clean_identifier form db now value self = (Return v, self') ->
  exists user,
    user_cache self' = Some user
    /\ In user (users db)
    /\ (username user = value \/ iexact (email user) value = true)
    /\ (looks_up_by_email form = true -> iexact (email user) value = true)
    /\ (form = SignInViaUsernameForm -> username user = value).
Proof.
  destruct form; unfold_clean;
    (destruct (QuerySet.first (User_objects_filter db _)) as [u|] eqn:Hres;
     [|discriminate]);
    apply first_filter_Some in Hres; destruct Hres as [Hin Hq];
    destruct (is_active u); simpl; try discriminate;
    try (destruct (QuerySet.first (activation_set db u)) as [a|];
         [|discriminate];
         destruct (created_at a >? now - hours_24); [discriminate|]);
    intros [= <- <-]; exists u; simpl;
    unfold Q_username_or_email in Hq;
    try (apply orb_true_iff in Hq; destruct Hq as [Hq|Hq]);
    unfold Q_username, Q_email_iexact in Hq;
    try match type of Hq with
        | String.eqb (username _) _ = true => apply String.eqb_eq in Hq
        end;
    repeat split; auto; try discriminate.
Qed.

Lemma cached_user_matches_witness :
  exists user,
    user_cache (mkForm (Some alice)) = Some user
    /\ In user (users example_db)
    /\ (username user = "ALICE@example.com"
        \/ iexact (email user) "ALICE@example.com" = true)
    /\ (looks_up_by_email SignInViaEmailForm = true ->
        iexact (email user) "ALICE@example.com" = true)
    /\ (SignInViaEmailForm = SignInViaUsernameForm ->
        username user = "ALICE@example.com").
Proof.
  apply (cached_user_matches SignInViaEmailForm example_db 0
           "ALICE@example.com" new_form "ALICE@example.com"
           (mkForm (Some alice))).
  reflexivity.
Defined.

(** With unique keys and addresses, the row holding an address is the one
    the e-mail look-up yields. *)
Lemma email_lookup_resolves db value u :
  ids_unique db ->
  emails_unique db ->
  In u (users db) ->
  iexact (email u) value = true ->
  resolves db (Q_email_iexact value) u.
Proof.
  intros Hids Hemails Hin Hcase. unfold resolves.
  destruct (QuerySet.first (User_objects_filter db (Q_email_iexact value)))
    as [v|] eqn:Hres.
  - apply first_filter_Some in Hres. destruct Hres as [Hv Hq].
    unfold Q_email_iexact in Hq. f_equal. apply Hids; try assumption.
    apply Hemails; try assumption.
    apply (iexact_trans _ value); [exact Hq|].
    rewrite iexact_sym. exact Hcase.
  - unfold User_objects_filter in Hres.
    rewrite first_filter_None in Hres.
    specialize (Hres u Hin). unfold Q_email_iexact in Hres. congruence.
Qed.

(** X8. On a user table with unique primary keys and addresses unique up
    to letter case, the forms that look up by e-mail address find the
    account that holds the submitted address, in whatever letter case it
    is submitted; an active account then passes every such form except
    the resend form, with exactly that account cached. *)
Theorem email_lookup_finds_the_account form db now value self u :
  looks_up_by_email form = true ->
  ids_unique db ->
  emails_unique db ->
  In u (users db) ->
  iexact (email u) value = true ->
  resolves db (lookup form value) u
  /\ (is_resend form = false ->
      is_active u = true ->
      clean_identifier form db now value self = (Return value, mkForm (Some u))).
Proof.
  intros Hform Hids Hemails Hin Hcase.
  pose proof (email_lookup_resolves db value u Hids Hemails Hin Hcase) as Hres.
  split.
  - destruct form; try discriminate Hform; exact Hres.
  - intros Hresend Hact. unfold resolves in Hres.
    destruct form; try discriminate Hform; try discriminate Hresend;
      unfold_clean; rewrite Hres, Hact; reflexivity.
Qed.

Lemma example_db_ids_unique : ids_unique example_db.
Proof.
  intros u v Hu Hv Hid. simpl in Hu, Hv.
  destruct Hu as [<-|[<-|[<-|[<-|[]]]]];
    destruct Hv as [<-|[<-|[<-|[<-|[]]]]];
    solve [reflexivity | vm_compute in Hid; discriminate Hid].
Qed.

Lemma example_db_emails_unique : emails_unique example_db.
Proof.
  intros u v Hu Hv Heq. simpl in Hu, Hv.
  destruct Hu as [<-|[<-|[<-|[<-|[]]]]];
    destruct Hv as [<-|[<-|[<-|[<-|[]]]]];
    solve [reflexivity | vm_compute in Heq; discriminate Heq].
Qed.

Lemma email_lookup_finds_the_account_witness :
  resolves example_db (lookup RestorePasswordForm "ALICE@EXAMPLE.COM") alice
  /\ clean_identifier RestorePasswordForm example_db 0 "ALICE@EXAMPLE.COM"
       new_form
     = (Return "ALICE@EXAMPLE.COM", mkForm (Some alice)).
Proof.
  destruct (email_lookup_finds_the_account RestorePasswordForm example_db 0
              "ALICE@EXAMPLE.COM" new_form alice eq_refl
              example_db_ids_unique example_db_emails_unique
              (or_introl eq_refl) eq_refl) as [Hres Hpass].
  split; [exact Hres|]. apply Hpass; reflexivity.
Defined.

(** ** Addresses stay unique *)

Lemma sign_up_accepted_no_match db candidate :
  SignUpForm_clean_email db candidate = Return candidate ->
  no_match db (Q_email_iexact candidate).
Proof.
  unfold SignUpForm_clean_email, User_objects_filter, no_match.
  destruct (QuerySet.exists_ (filter (Q_email_iexact candidate) (users db)))
    eqn:Hex; [discriminate|].
  intros _. apply exists_filter_false. exact Hex.
Qed.

(** X9. Sign-up e-mail cleaning returns the address, unchanged, exactly
    when no identity record holds it in any letter case; otherwise it
    raises the address-not-available error. *)
Theorem sign_up_email_accepted_iff db candidate :
  (SignUpForm_clean_email db candidate = Return candidate
   <-> no_match db (Q_email_iexact candidate))
  /\ (SignUpForm_clean_email db candidate = Raise EmailNotAvailable
      <-> exists u, In u (users db) /\ iexact (email u) candidate = true).
Proof.
  split.
  - split; [apply sign_up_accepted_no_match | apply sign_up_accepts_fresh_email].
  - unfold SignUpForm_clean_email, User_objects_filter.
    rewrite <- (exists_filter_true (Q_email_iexact candidate) (users db)).
    destruct (QuerySet.exists_ (filter (Q_email_iexact candidate) (users db)));
      split; solve [reflexivity | discriminate].
Qed.

(** X10. An address that sign-up e-mail cleaning accepts can be stored on
    a new account without breaking the uniqueness of addresses: on a
    table whose addresses are unique up to letter case, the table with
    one more row holding the accepted address is so too. *)
Theorem sign_up_keeps_emails_unique db candidate new :
  emails_unique db ->
  SignUpForm_clean_email db candidate = Return candidate ->
  email new = candidate ->
  emails_unique (with_new_user db new).
Proof.
  intros Huniq Hret Hnew.
  apply sign_up_accepted_no_match in Hret. unfold no_match in Hret.
  intros u v Hu Hv Heq. simpl in Hu, Hv.
  apply in_app_or in Hu. apply in_app_or in Hv.
  destruct Hu as [Hu|[<-|[]]]; destruct Hv as [Hv|[<-|[]]].
  - apply Huniq; assumption.
  - rewrite Hnew in Heq. specialize (Hret u Hu).
    unfold Q_email_iexact in Hret. congruence.
  - rewrite Hnew, iexact_sym in Heq. specialize (Hret v Hv).
    unfold Q_email_iexact in Hret. congruence.
  - reflexivity.
Qed.

Lemma sign_up_keeps_emails_unique_witness :
  emails_unique
    (with_new_user example_db
       (mkUser 5 "erin" "erin@example.com" "pw-erin" false)).
Proof.
  apply (sign_up_keeps_emails_unique example_db "erin@example.com"
           (mkUser 5 "erin" "erin@example.com" "pw-erin" false)).
  - exact example_db_emails_unique.
  - reflexivity.
  - reflexivity.
Defined.

Lemma change_email_accepted_own_rows db self_user candidate :
  ChangeEmailForm_clean_email db self_user candidate = Return candidate ->
  candidate <> email self_user
  /\ (forall u, In u (users db) -> iexact (email u) candidate = true ->
                id u = id self_user).
Proof.
  unfold ChangeEmailForm_clean_email.
  destruct (String.eqb_spec candidate (email self_user)) as [E|E];
    [discriminate|].
  destruct (QuerySet.exists_ _) eqn:Hex; [discriminate|].
  intros _. split; [exact E|].
  intros u Hu Hcase.
  unfold User_objects_filter in Hex. rewrite exists_filter_false in Hex.
  specialize (Hex u Hu).
  unfold Q_email_iexact_excluding, Q_email_iexact in Hex.
  rewrite Hcase in Hex. simpl in Hex.
  apply negb_false_iff, Z.eqb_eq in Hex. exact Hex.
Qed.

(** X11. E-mail change cleaning returns the candidate, unchanged, exactly
    when it differs letter for letter from the user's current address
    and every record holding it up to letter case has the user's own id.
    The current address itself is always refused with the
    enter-another-address error, whatever the table holds. *)
Theorem change_email_accepted_iff db self_user candidate :
  (ChangeEmailForm_clean_email db self_user candidate = Return candidate
   <-> candidate <> email self_user
       /\ (forall u, In u (users db) -> iexact (email u) candidate = true ->
                     id u = id self_user))
  /\ ChangeEmailForm_clean_email db self_user (email self_user)
     = Raise EnterAnotherEmail.
Proof.
  split; [split|].
  - apply change_email_accepted_own_rows.
  - intros [Hne Hown]. unfold ChangeEmailForm_clean_email.
    destruct (String.eqb_spec candidate (email self_user)); [contradiction|].
    rewrite (change_email_own_rows_only db self_user candidate Hown).
    reflexivity.
  - unfold ChangeEmailForm_clean_email. rewrite String.eqb_refl. reflexivity.
Qed.

(** X12. An address that e-mail change cleaning accepts can be stored on
    the user's record without breaking the uniqueness of addresses: on a
    table whose addresses are unique up to letter case, the table with
    the accepted address on the rows with the user's id is so too. *)
Theorem change_email_keeps_emails_unique db self_user candidate :
  emails_unique db ->
  ChangeEmailForm_clean_email db self_user candidate = Return candidate ->
  emails_unique (with_changed_email db self_user candidate).
Proof.
  intros Huniq Hret.
  apply change_email_accepted_own_rows in Hret. destruct Hret as [_ Hown].
  intros u' v' Hu Hv Heq. simpl in Hu, Hv.
  apply in_map_iff in Hu. destruct Hu as (u & <- & Hu).
  apply in_map_iff in Hv. destruct Hv as (v & <- & Hv).
  destruct (Z.eqb_spec (id u) (id self_user)) as [Eu|Eu];
    destruct (Z.eqb_spec (id v) (id self_user)) as [Ev|Ev]; simpl in *.
  - congruence.
  - rewrite iexact_sym in Heq. rewrite (Hown v Hv Heq). exact Eu.
  - rewrite (Hown u Hu Heq). symmetry. exact Ev.
  - apply Huniq; assumption.
Qed.

Lemma change_email_keeps_emails_unique_witness :
  emails_unique (with_changed_email example_db bob "robert@example.com").
Proof.
  apply (change_email_keeps_emails_unique example_db bob "robert@example.com").
  - exact example_db_emails_unique.
  - reflexivity.
Defined.

(** ** Cleaning a whole sign-in form *)

(** X13. Whatever the remember-me setting, a sign-in form cleans its
    identifier field first and its password field second; the
    remember-me field, added after the fields were ordered, comes last
    and is there exactly when the setting is on. *)
Theorem sign_in_fields_in_order form USE_REMEMBER_ME :
  is_sign_in form = true ->
  init_fields form USE_REMEMBER_ME
  = identifier_field form :: "password"
      :: (if USE_REMEMBER_ME then ["remember_me"] else []).
Proof.
  intros Hform.
  destruct form; try discriminate Hform; destruct USE_REMEMBER_ME; reflexivity.
Qed.

Lemma sign_in_fields_in_order_witness :
  init_fields SignInViaEmailOrUsernameForm true
  = ["email_or_username"; "password"; "remember_me"].
Proof.
  apply (sign_in_fields_in_order SignInViaEmailOrUsernameForm true eq_refl).
Defined.





(** ** What only the resend forms read *)

(** X16. The sign-in, restore-password and remind-username forms read
    neither the activation records nor the clock: on the same user table
    they give the same outcome and form state at any time and with any
    activation records. *)
Theorem identity_forms_ignore_activations
    form db db' now now' value self :
  is_resend form = false ->
  users db' = users db ->
  clean_identifier form db' now' value self
  = clean_identifier form db now value self.
Proof.
  intros Hform Husers.
  destruct form; try discriminate Hform; unfold_clean;
    unfold User_objects_filter; rewrite Husers; reflexivity.
Qed.

Lemma identity_forms_ignore_activations_witness :
  clean_identifier RemindUsernameForm (mkDatabase (users example_db) [])
    (900 * hour) "alice@example.com" new_form
  = clean_identifier RemindUsernameForm example_db 0 "alice@example.com"
      new_form.
Proof.
  apply (identity_forms_ignore_activations RemindUsernameForm example_db
           (mkDatabase (users example_db) []) 0 (900 * hour)
           "alice@example.com" new_form);
    reflexivity.
Defined.
